(** * Oppia [AuthService]: a shallow embedding of
      core/templates/services/auth.service.ts

    The service picks one of three [AuthServiceImpl] strategies when it is
    constructed and forwards sign-in, redirect handling and sign-out to it
    and to the [AuthBackendApiService].  Every method of the file is an
    [async] function, so the embedding has two layers:

    - [Sync A]: what a call does before it returns, a list of the calls it
      made on its collaborators and either a value or a thrown exception;
    - [Async A]: the body of an [async] function run to its end, the calls
      it made and the state its promise is left in.

    Collaborators that are not part of the file (AngularFireAuth, the
    backend API service, [window.prompt], hash-wasm's [md5]) are records of
    behaviours or explicit parameters: nothing is assumed about them. *)

From Stdlib Require Import String List Bool Arith NArith Lia.
Import ListNotations.
Open Scope string_scope.
Open Scope list_scope.

Set Implicit Arguments.

(** ** JavaScript values that the file handles *)

(** An [Error] object; [code] is the optional property Firebase errors
    carry ([undefined] on a plain [Error]). *)
Record JsError : Type := mkError {
  code : option string;
  message : string
}.

(** [new Error(msg)]. *)
Definition new_Error (msg : string) : JsError :=
  {| code := None; message := msg |}.

(** What a promise is rejected with, or what [throw] throws: [null] (as in
    [Promise.reject(null)]) or an error object. *)
Inductive Reason : Type :=
| RNull
| RError (e : JsError).

(** Reading [.code] of [null] throws this [TypeError]. *)
Definition TypeError_code_of_null : JsError :=
  new_Error "Cannot read properties of null (reading 'code')".

(** ** Promises

    A promise is observed by how it ends: fulfilled or rejected at some
    instant, or never settled.  Instants are natural numbers chosen by the
    environment for the calls that leave the process; [0] is "as soon as
    control gets there". *)
Inductive Promise (A : Type) : Type :=
| Fulfilled (t : nat) (a : A)
| Rejected (t : nat) (r : Reason)
| Pending.

Arguments Rejected {A} t r.
Arguments Pending {A}.

(** A continuation that starts at instant [t] cannot settle before [t]. *)
Definition delay {A} (t : nat) (p : Promise A) : Promise A :=
  match p with
  | Fulfilled u a => Fulfilled (Nat.max t u) a
  | Rejected u r => Rejected (Nat.max t u) r
  | Pending => Pending
  end.

(** The outcome of a promise, without its instant. *)
Inductive Settlement (A : Type) : Type :=
| Resolves (a : A)
| RejectsWith (r : Reason)
| NeverSettles.

Arguments RejectsWith {A} r.
Arguments NeverSettles {A}.

Definition settlement {A} (p : Promise A) : Settlement A :=
  match p with
  | Fulfilled _ a => Resolves a
  | Rejected _ r => RejectsWith r
  | Pending => NeverSettles
  end.

Definition is_fulfilled {A} (p : Promise A) : bool :=
  match p with Fulfilled _ _ => true | _ => false end.

Definition is_rejected {A} (p : Promise A) : bool :=
  match p with Rejected _ _ => true | _ => false end.


(** [Promise.all([p, q])]: fulfilled once both are, rejected as soon as one
    of them is, with that one's reason.  Two rejections at the same instant
    are handled in array order. *)
Definition Promise_all {A B} (p : Promise A) (q : Promise B)
  : Promise (A * B) :=
  match p, q with
  | Fulfilled t a, Fulfilled u b => Fulfilled (Nat.max t u) (a, b)
  | Rejected t r, Rejected u s =>
      if Nat.leb t u then Rejected t r else Rejected u s
  | Rejected t r, _ => Rejected t r
  | _, Rejected u s => Rejected u s
  | _, _ => Pending
  end.

(** ** firebase objects *)

(** [firebase.User]: the promise its [getIdToken()] returns. *)
Record User : Type := mkUser {
  getIdToken : Promise string
}.

(** [firebase.auth.UserCredential]; [user] is [null] when nobody signed
    in. *)
Record UserCredential : Type := mkUserCredential {
  user : option User
}.

(** [firebase.auth.GoogleAuthProvider] is opaque to the file: it is known
    by the configuration calls made on it, oldest first. *)
Inductive ProviderSetting : Type :=
| AddScope (scope : string)
| SetCustomParameters (params : list (string * string)).

Record GoogleAuthProvider : Type := mkProvider {
  settings : list ProviderSetting
}.

Definition new_GoogleAuthProvider : GoogleAuthProvider :=
  {| settings := [] |}.

Definition addScope (scope : string) (p : GoogleAuthProvider)
  : GoogleAuthProvider :=
  {| settings := settings p ++ [AddScope scope] |}.

Definition setCustomParameters (params : list (string * string))
  (p : GoogleAuthProvider) : GoogleAuthProvider :=
  {| settings := settings p ++ [SetCustomParameters params] |}.

(** The injected collaborators, each a record of what its methods answer.
    The email is [string | null], as [prompt] returns it. *)
Module AngularFireAuth.
Record t : Type := make {
  signInWithEmailAndPassword :
    option string -> string -> Promise UserCredential;
  createUserWithEmailAndPassword :
    option string -> string -> Promise UserCredential;
  signInWithRedirect : GoogleAuthProvider -> Promise unit;
  getRedirectResult : Promise UserCredential;
  signOut : Promise unit
}.
End AngularFireAuth.

Module AuthBackendApiService.
Record t : Type := make {
  beginSessionAsync : string -> Promise unit;
  endSessionAsync : Promise unit
}.
End AuthBackendApiService.

(** The browser window: [prompt(message)] answers a string, or [null] when
    the operator cancels. *)
Module Window.
Record t : Type := make {
  prompt : string -> option string
}.
End Window.

(** ** app.constants *)
Record AppConstants : Type := mkAppConstants {
  FIREBASE_AUTH_ENABLED : bool;
  EMULATOR_MODE : bool;
  FIREBASE_CONFIG_API_KEY : string;
  FIREBASE_CONFIG_AUTH_DOMAIN : string;
  FIREBASE_CONFIG_PROJECT_ID : string;
  FIREBASE_CONFIG_STORAGE_BUCKET : string;
  FIREBASE_CONFIG_MESSAGING_SENDER_ID : string;
  FIREBASE_CONFIG_APP_ID : string
}.

(** [FirebaseOptions], the six properties the file sets. *)
Record FirebaseOptions : Type := mkFirebaseOptions {
  apiKey : string;
  authDomain : string;
  projectId : string;
  storageBucket : string;
  messagingSenderId : string;
  appId : string
}.

(** ** Calls and their traces *)

Inductive Method : Type :=
| MGetRedirectResult
| MSignInWithRedirect
| MSignOut.

(** One entry per call that crosses an object boundary: the facade calling
    its strategy or the backend, a strategy calling AngularFireAuth or the
    window. *)
Inductive Event : Type :=
| StrategyCall (m : Method)
| Prompt (msg : string)
| SignInWithEmailAndPassword (email : option string) (password : string)
| CreateUserWithEmailAndPassword (email : option string) (password : string)
| SignInWithRedirect (provider : GoogleAuthProvider)
| GetRedirectResult
| FireSignOut
| GetIdToken
| BeginSession (idToken : string)
| EndSession.

Inductive Completion (A : Type) : Type :=
| Normal (a : A)
| Throw (r : Reason).

Arguments Throw {A} r.

Definition Sync (A : Type) : Type := (list Event * Completion A)%type.
Definition Async (A : Type) : Type := (list Event * Promise A)%type.

(** A method of a collaborator that answers the promise [p]. *)
Definition extern {A} (e : Event) (p : Promise A) : Sync (Promise A) :=
  ([e], Normal p).

Definition sync_ret {A} (a : A) : Sync A := ([], Normal a).

(** Sequencing of synchronous evaluation: an exception stops it. *)
Definition sync_bind {A B} (c : Sync A) (k : A -> Sync B) : Sync B :=
  match snd c with
  | Normal a => (fst c ++ fst (k a), snd (k a))
  | Throw r => (fst c, Throw r)
  end.

(** [return a] and [throw r] in the body of an [async] function. *)
Definition ret {A} (a : A) : Async A := ([], Fulfilled 0 a).
Definition throw {A} (r : Reason) : Async A := ([], Rejected 0 r).

(** A promise-valued expression used in an [async] body, as the operand of
    [await] or of [return]: an exception thrown while it is evaluated
    rejects the body's promise. *)
Definition settle {A} (c : Sync (Promise A)) : Async A :=
  match snd c with
  | Normal p => (fst c, p)
  | Throw r => (fst c, Rejected 0 r)
  end.

(** [const x = await m; k x]: the rest runs only once [m] is fulfilled. *)
Definition await {A B} (m : Async A) (k : A -> Async B) : Async B :=
  match snd m with
  | Fulfilled t a => (fst m ++ fst (k a), delay t (snd (k a)))
  | Rejected t r => (fst m, Rejected t r)
  | Pending => (fst m, Pending)
  end.

(** [try { m } catch (err) { h err }]. *)
Definition try_catch {A} (m : Async A) (h : Reason -> Async A) : Async A :=
  match snd m with
  | Rejected t r => (fst m ++ fst (h r), delay t (snd (h r)))
  | _ => m
  end.

(** Calling an [async] function never throws: it answers the promise of
    its body. *)
Definition async {A} (body : Async A) : Sync (Promise A) :=
  (fst body, Normal (snd body)).

Declare Scope async_scope.
Delimit Scope async_scope with async.
Notation "'let!' x ':=' m 'in' k" := (await m (fun x => k))
  (at level 10, x name, m at level 100, k at level 200) : async_scope.

(** A synchronous step inside an [async] body. *)
Definition run {A} (c : Sync A) : Async A :=
  match snd c with
  | Normal a => (fst c, Fulfilled 0 a)
  | Throw r => (fst c, Rejected 0 r)
  end.

Definition log (e : Event) : Sync unit := ([e], Normal tt).

(** [prompt(msg)]. *)
Definition window_prompt (w : Window.t) (msg : string)
  : Sync (option string) :=
  ([Prompt msg], Normal (Window.prompt w msg)).

(** hash-wasm's [md5], applied to whatever [prompt] answered. *)
Definition Md5 : Type := option string -> Promise string.

(** [err.code === c]. *)
Definition code_is (e : JsError) (c : string) : bool :=
  match code e with
  | Some c' => String.eqb c' c
  | None => false
  end.

(** ** The strategies *)

Module NullAuthServiceImpl.
Record t : Type := make { error : JsError }.

Definition new : t :=
  {| error := new_Error "AngularFireAuth is not available" |}.

Definition signInWithRedirectAsync (this : t) : Sync (Promise unit) :=
  async (throw (RError (error this))).

Definition getRedirectResultAsync (this : t)
  : Sync (Promise UserCredential) :=
  async (throw (RError (error this))).

Definition signOutAsync (this : t) : Sync (Promise unit) :=
  async (throw (RError (error this))).
End NullAuthServiceImpl.

Module DevAuthServiceImpl.
Record t : Type := make { angularFireAuth : AngularFireAuth.t }.

Definition new (angularFireAuth : AngularFireAuth.t) : t :=
  {| angularFireAuth := angularFireAuth |}.

Definition prompt_message : string :=
  "Please enter the email address to sign-in with".

Definition signInWithRedirectAsync (this : t) : Sync (Promise unit) :=
  async (ret tt).

Definition getRedirectResultAsync (md5 : Md5) (w : Window.t) (this : t)
  : Sync (Promise UserCredential) :=
  let fa := angularFireAuth this in
  async
    (let! email := run (window_prompt w prompt_message) in
     let! password := settle (sync_ret (md5 email)) in
     let! creds :=
       try_catch
         (settle
            (extern (SignInWithEmailAndPassword email password)
               (AngularFireAuth.signInWithEmailAndPassword
                  fa email password)))
         (fun err =>
            match err with
            | RNull => throw (RError TypeError_code_of_null)
            | RError e =>
                if code_is e "auth/user-not-found" then
                  settle
                    (extern (CreateUserWithEmailAndPassword email password)
                       (AngularFireAuth.createUserWithEmailAndPassword
                          fa email password))
                else throw err
            end) in
     ret creds)%async.

Definition signOutAsync (this : t) : Sync (Promise unit) :=
  async (settle (extern FireSignOut
                   (AngularFireAuth.signOut (angularFireAuth this)))).
End DevAuthServiceImpl.

Module ProdAuthServiceImpl.
Record t : Type := make {
  provider : GoogleAuthProvider;
  angularFireAuth : AngularFireAuth.t
}.

Definition new (angularFireAuth : AngularFireAuth.t) : t :=
  {| provider :=
       setCustomParameters [("prompt", "select_account")]
         (addScope "email" new_GoogleAuthProvider);
     angularFireAuth := angularFireAuth |}.

Definition signInWithRedirectAsync (this : t) : Sync (Promise unit) :=
  async (settle (extern (SignInWithRedirect (provider this))
                   (AngularFireAuth.signInWithRedirect
                      (angularFireAuth this) (provider this)))).

Definition getRedirectResultAsync (this : t)
  : Sync (Promise UserCredential) :=
  async (settle (extern GetRedirectResult
                   (AngularFireAuth.getRedirectResult
                      (angularFireAuth this)))).

Definition signOutAsync (this : t) : Sync (Promise unit) :=
  async (settle (extern FireSignOut
                   (AngularFireAuth.signOut (angularFireAuth this)))).
End ProdAuthServiceImpl.

(** The abstract class: a call on [this.authServiceImpl] goes to the
    class of the object that was stored there. *)
Module AuthServiceImpl.
Inductive t : Type :=
| Null (impl : NullAuthServiceImpl.t)
| Dev (impl : DevAuthServiceImpl.t)
| Prod (impl : ProdAuthServiceImpl.t).

Definition getRedirectResultAsync (md5 : Md5) (w : Window.t) (this : t)
  : Sync (Promise UserCredential) :=
  sync_bind (log (StrategyCall MGetRedirectResult)) (fun _ =>
    match this with
    | Null impl => NullAuthServiceImpl.getRedirectResultAsync impl
    | Dev impl => DevAuthServiceImpl.getRedirectResultAsync md5 w impl
    | Prod impl => ProdAuthServiceImpl.getRedirectResultAsync impl
    end).

Definition signInWithRedirectAsync (this : t) : Sync (Promise unit) :=
  sync_bind (log (StrategyCall MSignInWithRedirect)) (fun _ =>
    match this with
    | Null impl => NullAuthServiceImpl.signInWithRedirectAsync impl
    | Dev impl => DevAuthServiceImpl.signInWithRedirectAsync impl
    | Prod impl => ProdAuthServiceImpl.signInWithRedirectAsync impl
    end).

Definition signOutAsync (this : t) : Sync (Promise unit) :=
  sync_bind (log (StrategyCall MSignOut)) (fun _ =>
    match this with
    | Null impl => NullAuthServiceImpl.signOutAsync impl
    | Dev impl => DevAuthServiceImpl.signOutAsync impl
    | Prod impl => ProdAuthServiceImpl.signOutAsync impl
    end).
End AuthServiceImpl.

(** ** The service *)

Module AuthService.
Record t : Type := make {
  authServiceImpl : AuthServiceImpl.t;
  angularFireAuth : option AngularFireAuth.t;
  authBackendApiService : AuthBackendApiService.t
}.

Definition firebaseAuthIsEnabled (c : AppConstants) : bool :=
  FIREBASE_AUTH_ENABLED c.

Definition firebaseEmulatorIsEnabled (c : AppConstants) : bool :=
  firebaseAuthIsEnabled c && EMULATOR_MODE c.

(** [undefined] is [None]. *)
Definition firebaseConfig (c : AppConstants) : option FirebaseOptions :=
  if negb (firebaseAuthIsEnabled c) then None
  else Some {| apiKey := FIREBASE_CONFIG_API_KEY c;
               authDomain := FIREBASE_CONFIG_AUTH_DOMAIN c;
               projectId := FIREBASE_CONFIG_PROJECT_ID c;
               storageBucket := FIREBASE_CONFIG_STORAGE_BUCKET c;
               messagingSenderId := FIREBASE_CONFIG_MESSAGING_SENDER_ID c;
               appId := FIREBASE_CONFIG_APP_ID c |}.

Definition firebaseEmulatorConfig (c : AppConstants)
  : option (string * N) :=
  if firebaseEmulatorIsEnabled c then Some ("localhost", 9099%N)
  else None.

(** The constructor.  [angularFireAuth] is an [@Optional()] injection:
    [None] when Angular has no provider for it. *)
Definition new (c : AppConstants)
  (angularFireAuth : option AngularFireAuth.t)
  (authBackendApiService : AuthBackendApiService.t) : t :=
  {| authServiceImpl :=
       match angularFireAuth with
       | None => AuthServiceImpl.Null NullAuthServiceImpl.new
       | Some fa =>
           if firebaseEmulatorIsEnabled c
           then AuthServiceImpl.Dev (DevAuthServiceImpl.new fa)
           else AuthServiceImpl.Prod (ProdAuthServiceImpl.new fa)
       end;
     angularFireAuth := angularFireAuth;
     authBackendApiService := authBackendApiService |}.

Definition handleRedirectResultAsync (md5 : Md5) (w : Window.t) (this : t)
  : Sync (Promise unit) :=
  async
    (let! creds :=
       settle (AuthServiceImpl.getRedirectResultAsync md5 w
                 (authServiceImpl this)) in
     match user creds with
     | Some u =>
         let! idToken := settle (extern GetIdToken (getIdToken u)) in
         settle
           (extern (BeginSession idToken)
              (AuthBackendApiService.beginSessionAsync
                 (authBackendApiService this) idToken))
     | None => settle (sync_ret (Rejected 0 RNull))
     end)%async.

Definition signInWithRedirectAsync (this : t) : Sync (Promise unit) :=
  async (settle (AuthServiceImpl.signInWithRedirectAsync
                   (authServiceImpl this))).

(** The array literal evaluates its two calls in order, then
    [Promise.all] joins the two promises. *)
Definition signOutAsync (this : t) : Sync (Promise unit) :=
  async
    (let! _ :=
       settle
         (sync_bind
            (AuthServiceImpl.signOutAsync (authServiceImpl this))
            (fun p1 =>
               sync_bind
                 (extern EndSession
                    (AuthBackendApiService.endSessionAsync
                       (authBackendApiService this)))
                 (fun p2 => sync_ret (Promise_all p1 p2)))) in
     ret tt)%async.
End AuthService.

(** ** Reading a trace *)

(** The tokens that [beginSessionAsync] was called with, oldest first. *)
Definition begin_session_tokens (tr : list Event) : list string :=
  flat_map (fun e => match e with BeginSession tok => [tok] | _ => [] end) tr.

(** The (email, password) pairs of the account-creation calls. *)
Definition account_creations (tr : list Event)
  : list (option string * string) :=
  flat_map (fun e => match e with
                     | CreateUserWithEmailAndPassword m p => [(m, p)]
                     | _ => []
                     end) tr.

(** The passwords handed to AngularFireAuth, by sign-in or by creation. *)
Definition passwords_used (tr : list Event) : list string :=
  flat_map (fun e => match e with
                     | SignInWithEmailAndPassword _ p => [p]
                     | CreateUserWithEmailAndPassword _ p => [p]
                     | _ => []
                     end) tr.


Definition is_end_session (e : Event) : bool :=
  match e with EndSession => true | _ => false end.

Definition is_fire_sign_out (e : Event) : bool :=
  match e with FireSignOut => true | _ => false end.

Definition count (f : Event -> bool) (tr : list Event) : nat :=
  length (filter f tr).


(** What [await Promise.all([...])] followed by the end of the body leaves
    in the promise of [signOutAsync]. *)
Definition joined {A B} (p : Promise A) (q : Promise B) : Promise unit :=
  match Promise_all p q with
  | Fulfilled t _ => Fulfilled (Nat.max t 0) tt
  | Rejected t r => Rejected t r
  | Pending => Pending
  end.

(** ** Sample collaborators, for the concrete instances below *)

Module Samples.
Definition user_not_found : JsError :=
  {| code := Some "auth/user-not-found";
     message := "There is no user record for this identifier" |}.

Definition network_failed : JsError :=
  {| code := Some "auth/network-request-failed";
     message := "A network error has occurred" |}.

Definition alice : User := {| getIdToken := Fulfilled 7 "T" |}.

(** An emulator that does not know the account yet. *)
Definition fresh_emulator : AngularFireAuth.t :=
  {| AngularFireAuth.signInWithEmailAndPassword :=
       fun _ _ => Rejected 3 (RError user_not_found);
     AngularFireAuth.createUserWithEmailAndPassword :=
       fun _ _ => Fulfilled 5 {| user := Some alice |};
     AngularFireAuth.signInWithRedirect := fun _ => Pending;
     AngularFireAuth.getRedirectResult := Fulfilled 2 {| user := None |};
     AngularFireAuth.signOut := Fulfilled 4 tt |}.

(** A provider that is unreachable for email sign-in and whose redirect
    call fails at once. *)
Definition offline : AngularFireAuth.t :=
  {| AngularFireAuth.signInWithEmailAndPassword :=
       fun _ _ => Rejected 3 (RError network_failed);
     AngularFireAuth.createUserWithEmailAndPassword :=
       fun _ _ => Rejected 3 (RError network_failed);
     AngularFireAuth.signInWithRedirect :=
       fun _ => Rejected 1 (RError network_failed);
     AngularFireAuth.getRedirectResult := Fulfilled 2 {| user := Some alice |};
     AngularFireAuth.signOut := Rejected 6 (RError network_failed) |}.

Definition backend : AuthBackendApiService.t :=
  {| AuthBackendApiService.beginSessionAsync := fun _ => Fulfilled 9 tt;
     AuthBackendApiService.endSessionAsync := Rejected 1 RNull |}.

Definition window : Window.t :=
  {| Window.prompt := fun _ => Some "a@b.com" |}.

(** A stand-in for the digest: any function will do. *)
Definition md5 : Md5 :=
  fun data =>
    match data with
    | Some s => Fulfilled 0 ("md5:" ++ s)%string
    | None => Rejected 0 (RError (new_Error "Invalid data type!"))
    end.

Definition constants (auth emulator : bool) : AppConstants :=
  {| FIREBASE_AUTH_ENABLED := auth;
     EMULATOR_MODE := emulator;
     FIREBASE_CONFIG_API_KEY := "key";
     FIREBASE_CONFIG_AUTH_DOMAIN := "oppia.example";
     FIREBASE_CONFIG_PROJECT_ID := "oppia";
     FIREBASE_CONFIG_STORAGE_BUCKET := "bucket";
     FIREBASE_CONFIG_MESSAGING_SENDER_ID := "42";
     FIREBASE_CONFIG_APP_ID := "app" |}.
End Samples.

(** ** Further readings of a trace *)

(** Calls on the window. *)
Definition is_prompt (e : Event) : bool :=
  match e with Prompt _ => true | _ => false end.

(** Calls on AngularFireAuth. *)
Definition is_fire_call (e : Event) : bool :=
  match e with
  | SignInWithEmailAndPassword _ _ | CreateUserWithEmailAndPassword _ _
  | SignInWithRedirect _ | GetRedirectResult | FireSignOut => true
  | _ => false
  end.

(** Calls on the backend API service. *)
Definition is_backend_call (e : Event) : bool :=
  match e with BeginSession _ | EndSession => true | _ => false end.

Definition is_get_id_token (e : Event) : bool :=
  match e with GetIdToken => true | _ => false end.

(** The error of the Null strategy. *)
Definition unavailable : Reason :=
  RError (new_Error "AngularFireAuth is not available").

(** The provider the Prod strategy is constructed with. *)
Definition google_provider : GoogleAuthProvider :=
  {| settings :=
       [AddScope "email";
        SetCustomParameters [("prompt", "select_account")]] |}.

(** More collaborators for the concrete instances. *)
Module Cases.
Definition token_expired : JsError :=
  {| code := Some "auth/user-token-expired";
     message := "The user's credential is no longer valid" |}.

(** A user whose token cannot be fetched. *)
Definition bob : User :=
  {| getIdToken := Rejected 8 (RError token_expired) |}.

(** An AngularFireAuth whose rejections carry [null], and whose redirect
    result holds [bob]. *)
Definition nulls : AngularFireAuth.t :=
  {| AngularFireAuth.signInWithEmailAndPassword := fun _ _ => Rejected 3 RNull;
     AngularFireAuth.createUserWithEmailAndPassword :=
       fun _ _ => Rejected 4 RNull;
     AngularFireAuth.signInWithRedirect := fun _ => Pending;
     AngularFireAuth.getRedirectResult := Fulfilled 2 {| user := Some bob |};
     AngularFireAuth.signOut := Fulfilled 4 tt |}.

(** An emulator that knows the account, and whose redirect result is
    refused. *)
Definition known : AngularFireAuth.t :=
  {| AngularFireAuth.signInWithEmailAndPassword :=
       fun _ _ => Fulfilled 3 {| user := Some Samples.alice |};
     AngularFireAuth.createUserWithEmailAndPassword :=
       fun _ _ => Rejected 4 (RError Samples.network_failed);
     AngularFireAuth.signInWithRedirect := fun _ => Fulfilled 1 tt;
     AngularFireAuth.getRedirectResult :=
       Rejected 2 (RError Samples.network_failed);
     AngularFireAuth.signOut := Fulfilled 4 tt |}.

(** The operator cancels the prompt. *)
Definition cancelled : Window.t :=
  {| Window.prompt := fun _ => None |}.

(** A backend whose calls succeed. *)
Definition backend_up : AuthBackendApiService.t :=
  {| AuthBackendApiService.beginSessionAsync := fun _ => Fulfilled 9 tt;
     AuthBackendApiService.endSessionAsync := Fulfilled 6 tt |}.

End Cases.

(** * Properties *)

Unset Implicit Arguments.

(** ** The embedding at work *)

(** The Dev strategy on an emulator that does not know the account: prompt,
    failed sign-in, account creation, token, session. *)
Example handleRedirectResultAsync_on_fresh_emulator :
  AuthService.handleRedirectResultAsync Samples.md5 Samples.window
    (AuthService.new (Samples.constants true true)
       (Some Samples.fresh_emulator) Samples.backend)
  = ([StrategyCall MGetRedirectResult;
      Prompt "Please enter the email address to sign-in with";
      SignInWithEmailAndPassword (Some "a@b.com") "md5:a@b.com";
      CreateUserWithEmailAndPassword (Some "a@b.com") "md5:a@b.com";
      GetIdToken;
      BeginSession "T"],
     Normal (Fulfilled 9 tt)).
Proof. reflexivity. Qed.

(** Sign-out without AngularFireAuth: the strategy fails at once, the
    backend is called all the same. *)
Example signOutAsync_without_AngularFireAuth :
  AuthService.signOutAsync
    (AuthService.new (Samples.constants true false) None Samples.backend)
  = ([StrategyCall MSignOut; EndSession],
     Normal (Rejected 0
               (RError (new_Error "AngularFireAuth is not available")))).
Proof. reflexivity. Qed.

(** Sign-out on the Prod strategy when both calls fail: the backend's
    failure comes first. *)
Example signOutAsync_first_failure_wins :
  AuthService.signOutAsync
    (AuthService.new (Samples.constants true false)
       (Some Samples.offline) Samples.backend)
  = ([StrategyCall MSignOut; FireSignOut; EndSession],
     Normal (Rejected 1 RNull)).
Proof. reflexivity. Qed.

(** ** Configuration accessors *)

(** C9: the accessors are functions of the constants alone, and
    [firebaseEmulatorConfig] is [('localhost', 9099)] when
    [firebaseEmulatorIsEnabled] holds (auth enabled and emulator mode on)
    and [undefined] otherwise. *)
Theorem firebaseEmulatorConfig_fixed_address :
  forall c : AppConstants,
    AuthService.firebaseAuthIsEnabled c = FIREBASE_AUTH_ENABLED c /\
    AuthService.firebaseEmulatorIsEnabled c
      = (FIREBASE_AUTH_ENABLED c && EMULATOR_MODE c) /\
    AuthService.firebaseEmulatorConfig c
      = (if AuthService.firebaseEmulatorIsEnabled c
         then Some ("localhost", 9099%N) else None).
Proof.
  intro c. repeat split.
Qed.

(** C10: [firebaseConfig] is [undefined] when the auth flag is off, and
    otherwise the options object holding the six constants. *)
Theorem firebaseConfig_from_constants :
  forall c : AppConstants,
    AuthService.firebaseConfig c =
      match FIREBASE_AUTH_ENABLED c with
      | false => None
      | true =>
          Some (mkFirebaseOptions
                  (FIREBASE_CONFIG_API_KEY c)
                  (FIREBASE_CONFIG_AUTH_DOMAIN c)
                  (FIREBASE_CONFIG_PROJECT_ID c)
                  (FIREBASE_CONFIG_STORAGE_BUCKET c)
                  (FIREBASE_CONFIG_MESSAGING_SENDER_ID c)
                  (FIREBASE_CONFIG_APP_ID c))
      end.
Proof.
  intro c. unfold AuthService.firebaseConfig, AuthService.firebaseAuthIsEnabled.
  now destruct (FIREBASE_AUTH_ENABLED c).
Qed.

(** ** Strategy selection *)

(** C1, as the constructor has it: the strategy depends on whether
    AngularFireAuth was injected and on the two flags.  Nothing injected
    gives the Null strategy whatever the flags; injected with both flags on
    gives Dev; injected with either flag off gives Prod. *)
Theorem constructor_selects_strategy :
  forall (c : AppConstants) (backend : AuthBackendApiService.t),
    AuthService.authServiceImpl (AuthService.new c None backend)
      = AuthServiceImpl.Null NullAuthServiceImpl.new /\
    (forall fa,
        FIREBASE_AUTH_ENABLED c = true -> EMULATOR_MODE c = true ->
        AuthService.authServiceImpl (AuthService.new c (Some fa) backend)
          = AuthServiceImpl.Dev (DevAuthServiceImpl.new fa)) /\
    (forall fa,
        FIREBASE_AUTH_ENABLED c = true -> EMULATOR_MODE c = false ->
        AuthService.authServiceImpl (AuthService.new c (Some fa) backend)
          = AuthServiceImpl.Prod (ProdAuthServiceImpl.new fa)) /\
    (forall fa,
        FIREBASE_AUTH_ENABLED c = false ->
        AuthService.authServiceImpl (AuthService.new c (Some fa) backend)
          = AuthServiceImpl.Prod (ProdAuthServiceImpl.new fa)).
Proof.
  intros c backend.
  unfold AuthService.new, AuthService.firebaseEmulatorIsEnabled,
    AuthService.firebaseAuthIsEnabled; cbn.
  repeat split; intros fa Ha; try intros He; rewrite Ha; try rewrite He;
    reflexivity.
Qed.

Lemma constructor_selects_strategy_witness :
  AuthService.authServiceImpl
    (AuthService.new (Samples.constants true true)
       (Some Samples.fresh_emulator) Samples.backend)
    = AuthServiceImpl.Dev (DevAuthServiceImpl.new Samples.fresh_emulator) /\
  AuthService.authServiceImpl
    (AuthService.new (Samples.constants true false)
       (Some Samples.offline) Samples.backend)
    = AuthServiceImpl.Prod (ProdAuthServiceImpl.new Samples.offline) /\
  AuthService.authServiceImpl
    (AuthService.new (Samples.constants false true)
       (Some Samples.offline) Samples.backend)
    = AuthServiceImpl.Prod (ProdAuthServiceImpl.new Samples.offline).
Proof.
  split; [|split].
  - destruct (constructor_selects_strategy
                (Samples.constants true true) Samples.backend)
      as (_ & Hdev & _ & _).
    apply Hdev; reflexivity.
  - destruct (constructor_selects_strategy
                (Samples.constants true false) Samples.backend)
      as (_ & _ & Hprod & _).
    apply Hprod; reflexivity.
  - destruct (constructor_selects_strategy
                (Samples.constants false true) Samples.backend)
      as (_ & _ & _ & Hoff).
    apply Hoff; reflexivity.
Defined.

(** When the application injects AngularFireAuth exactly when the auth flag
    is on, the two flags do decide the strategy. *)
Lemma constructor_selects_by_flags_when_wired (c : AppConstants)
  (angularFireAuth : option AngularFireAuth.t)
  (backend : AuthBackendApiService.t) :
  (FIREBASE_AUTH_ENABLED c = true <-> angularFireAuth <> None) ->
  match AuthService.authServiceImpl
          (AuthService.new c angularFireAuth backend) with
  | AuthServiceImpl.Null _ => FIREBASE_AUTH_ENABLED c = false
  | AuthServiceImpl.Dev _ =>
      FIREBASE_AUTH_ENABLED c = true /\ EMULATOR_MODE c = true
  | AuthServiceImpl.Prod _ =>
      FIREBASE_AUTH_ENABLED c = true /\ EMULATOR_MODE c = false
  end.
Proof.
  intros [Hon Hinj].
  unfold AuthService.new, AuthService.firebaseEmulatorIsEnabled,
    AuthService.firebaseAuthIsEnabled; cbn.
  destruct angularFireAuth as [fa|].
  - assert (Hauth : FIREBASE_AUTH_ENABLED c = true)
      by (apply Hinj; discriminate).
    rewrite Hauth; cbn. destruct (EMULATOR_MODE c); now split.
  - destruct (FIREBASE_AUTH_ENABLED c); [|reflexivity].
    now destruct (Hon eq_refl).
Qed.

(** C1 as it was stated fails: with the auth flag off and AngularFireAuth
    injected all the same, the constructor stores the Prod strategy, not
    the Null one. *)
Lemma flags_alone_do_not_select_counterexample :
  FIREBASE_AUTH_ENABLED (Samples.constants false false) = false /\
  AuthService.authServiceImpl
    (AuthService.new (Samples.constants false false)
       (Some Samples.offline) Samples.backend)
    = AuthServiceImpl.Prod (ProdAuthServiceImpl.new Samples.offline) /\
  AuthService.authServiceImpl
    (AuthService.new (Samples.constants false false)
       (Some Samples.offline) Samples.backend)
    <> AuthServiceImpl.Null NullAuthServiceImpl.new.
Proof.
  repeat split. discriminate.
Qed.

(** ** General facts about promises and traces *)

Lemma settlement_delay {A} (t : nat) (p : Promise A) :
  settlement (delay t p) = settlement p.
Proof. now destruct p. Qed.

Lemma code_is_true (e : JsError) (c : string) :
  code_is e c = true <-> code e = Some c.
Proof.
  unfold code_is. destruct (code e) as [c'|].
  - rewrite String.eqb_eq. split; congruence.
  - split; discriminate.
Qed.

Lemma code_is_false (e : JsError) (c : string) :
  code_is e c = false <-> code e <> Some c.
Proof.
  rewrite <- code_is_true. now destruct (code_is e c).
Qed.

(** Unfolds the combinators of the embedding. *)
Ltac unfold_async :=
  unfold async, await, try_catch, settle, run, extern, sync_bind, sync_ret,
    log, window_prompt, ret, throw in *.

(** ** The Null strategy *)

(** C6: each of the three operations of the Null strategy returns a
    promise rejected with the [Error('AngularFireAuth is not available')]
    held by the object; none of them throws, and none of them calls a
    collaborator.  The same holds when they are reached through the
    abstract class. *)
Theorem null_strategy_rejects_every_operation :
  forall (md5 : Md5) (w : Window.t),
    let this := NullAuthServiceImpl.new in
    let unavailable :=
      RError (new_Error "AngularFireAuth is not available") in
    NullAuthServiceImpl.signInWithRedirectAsync this
      = ([], Normal (Rejected 0 unavailable)) /\
    NullAuthServiceImpl.getRedirectResultAsync this
      = ([], Normal (Rejected 0 unavailable)) /\
    NullAuthServiceImpl.signOutAsync this
      = ([], Normal (Rejected 0 unavailable)) /\
    snd (AuthServiceImpl.signInWithRedirectAsync (AuthServiceImpl.Null this))
      = Normal (Rejected 0 unavailable) /\
    snd (AuthServiceImpl.getRedirectResultAsync md5 w
           (AuthServiceImpl.Null this))
      = Normal (Rejected 0 unavailable) /\
    snd (AuthServiceImpl.signOutAsync (AuthServiceImpl.Null this))
      = Normal (Rejected 0 unavailable).
Proof.
  intros md5 w. cbv zeta. repeat split.
Qed.

(** ** The Prod strategy *)




(** Whatever AngularFireAuth answers, the Prod strategy hands it on. *)
Lemma prod_signInWithRedirectAsync_passes_on (this : ProdAuthServiceImpl.t) :
  ProdAuthServiceImpl.signInWithRedirectAsync this
    = ([SignInWithRedirect (ProdAuthServiceImpl.provider this)],
       Normal (AngularFireAuth.signInWithRedirect
                 (ProdAuthServiceImpl.angularFireAuth this)
                 (ProdAuthServiceImpl.provider this))).
Proof. reflexivity. Qed.

(** The provider the Prod strategy signs in with asks for the email scope
    and always prompts for the account. *)
Lemma prod_provider_settings (fa : AngularFireAuth.t) :
  settings (ProdAuthServiceImpl.provider (ProdAuthServiceImpl.new fa))
    = [AddScope "email"; SetCustomParameters [("prompt", "select_account")]].
Proof. reflexivity. Qed.

(** ** The Dev strategy *)

(** A sign-in rejected with [null] carries no [code] to read: the catch
    block itself throws, and no account is created. *)
Lemma dev_getRedirectResultAsync_null_rejection (md5 : Md5) (w : Window.t)
  (this : DevAuthServiceImpl.t) (t u : nat) (password : string) :
  let email := Window.prompt w DevAuthServiceImpl.prompt_message in
  md5 email = Fulfilled t password ->
  AngularFireAuth.signInWithEmailAndPassword
    (DevAuthServiceImpl.angularFireAuth this) email password
    = Rejected u RNull ->
  DevAuthServiceImpl.getRedirectResultAsync md5 w this
    = ([Prompt DevAuthServiceImpl.prompt_message;
        SignInWithEmailAndPassword email password],
       Normal (Rejected (Nat.max t u) (RError TypeError_code_of_null))).
Proof.
  intros email Hmd5 Hsign.
  unfold DevAuthServiceImpl.getRedirectResultAsync. unfold_async. cbn.
  fold email. rewrite Hmd5. cbn. rewrite Hsign. cbn.
  now rewrite Nat.max_0_r.
Qed.

(** C5: when the email/password sign-in is rejected with an error object,
    the Dev strategy creates the account only for the code
    'auth/user-not-found': then one creation call with the same email and
    password follows the sign-in and its outcome is the result; any other
    error is the rejection of the result and no creation call is made. *)
Theorem dev_getRedirectResultAsync_creates_only_when_not_found :
  forall (md5 : Md5) (w : Window.t) (this : DevAuthServiceImpl.t)
         (t u : nat) (password : string) (e : JsError),
    let email := Window.prompt w DevAuthServiceImpl.prompt_message in
    let fa := DevAuthServiceImpl.angularFireAuth this in
    let r := DevAuthServiceImpl.getRedirectResultAsync md5 w this in
    md5 email = Fulfilled t password ->
    AngularFireAuth.signInWithEmailAndPassword fa email password
      = Rejected u (RError e) ->
    (code e = Some "auth/user-not-found" ->
     fst r = [Prompt DevAuthServiceImpl.prompt_message;
              SignInWithEmailAndPassword email password;
              CreateUserWithEmailAndPassword email password] /\
     account_creations (fst r) = [(email, password)] /\
     exists p,
       snd r = Normal p /\
       settlement p =
         settlement (AngularFireAuth.createUserWithEmailAndPassword
                       fa email password)) /\
    (code e <> Some "auth/user-not-found" ->
     account_creations (fst r) = [] /\
     exists v, snd r = Normal (Rejected v (RError e))).
Proof.
  intros md5 w this t u password e email fa r Hmd5 Hsign.
  subst r. unfold DevAuthServiceImpl.getRedirectResultAsync.
  fold fa. unfold_async. cbn. fold email.
  rewrite Hmd5. cbn. rewrite Hsign. cbn.
  split; intro Hcode.
  - apply code_is_true in Hcode. rewrite Hcode. cbn.
    destruct (AngularFireAuth.createUserWithEmailAndPassword fa email password)
      as [v c|v s|]; cbn; repeat split; eexists; split; reflexivity.
  - apply code_is_false in Hcode. rewrite Hcode. cbn.
    split; [reflexivity|]. eexists; reflexivity.
Qed.

Lemma dev_getRedirectResultAsync_creates_only_when_not_found_witness :
  account_creations
    (fst (DevAuthServiceImpl.getRedirectResultAsync Samples.md5 Samples.window
            (DevAuthServiceImpl.new Samples.fresh_emulator)))
    = [(Some "a@b.com", "md5:a@b.com")] /\
  account_creations
    (fst (DevAuthServiceImpl.getRedirectResultAsync Samples.md5 Samples.window
            (DevAuthServiceImpl.new Samples.offline)))
    = [].
Proof.
  split.
  - destruct (dev_getRedirectResultAsync_creates_only_when_not_found
                Samples.md5 Samples.window
                (DevAuthServiceImpl.new Samples.fresh_emulator)
                0 3 "md5:a@b.com" Samples.user_not_found eq_refl eq_refl)
      as [Hfound _].
    apply Hfound. reflexivity.
  - destruct (dev_getRedirectResultAsync_creates_only_when_not_found
                Samples.md5 Samples.window
                (DevAuthServiceImpl.new Samples.offline)
                0 3 "md5:a@b.com" Samples.network_failed eq_refl eq_refl)
      as [_ Hother].
    apply Hother. discriminate.
Defined.

(** Case analysis on every answer a collaborator gives in the goal. *)
Ltac destruct_answers :=
  repeat match goal with
         | |- context [match ?x with _ => _ end] => destruct x eqn:?; cbn
         end.

(** A password reaches AngularFireAuth only as the digest [md5] answered
    for the prompted email. *)
Lemma dev_passwords_come_from_md5 (md5 : Md5) (w : Window.t)
  (this : DevAuthServiceImpl.t) (p : string) :
  In p (passwords_used
          (fst (DevAuthServiceImpl.getRedirectResultAsync md5 w this))) ->
  exists t,
    md5 (Window.prompt w DevAuthServiceImpl.prompt_message) = Fulfilled t p.
Proof.
  unfold DevAuthServiceImpl.getRedirectResultAsync. unfold_async. cbn.
  destruct (md5 (Window.prompt w DevAuthServiceImpl.prompt_message))
    as [t pw|t r|]; cbn; try tauto.
  destruct_answers; intros Hin;
    repeat (destruct Hin as [Hin|Hin]; [subst; now exists t|]);
    contradiction.
Qed.

(** Once the digest is there, the sign-in is attempted with it. *)
Lemma dev_signs_in_with_md5 (md5 : Md5) (w : Window.t)
  (this : DevAuthServiceImpl.t) (t : nat) (p : string) :
  md5 (Window.prompt w DevAuthServiceImpl.prompt_message) = Fulfilled t p ->
  In p (passwords_used
          (fst (DevAuthServiceImpl.getRedirectResultAsync md5 w this))).
Proof.
  intro Hmd5.
  unfold DevAuthServiceImpl.getRedirectResultAsync. unfold_async. cbn.
  rewrite Hmd5. cbn.
  destruct_answers; now left.
Qed.

(** C7: the password the Dev strategy uses is the md5 digest of the
    prompted email and of nothing else.  Two runs that are given the same
    email, whatever their windows and AngularFireAuth objects otherwise
    answer, hand the same password to AngularFireAuth; that password is
    the digest of the email, and it is used as soon as the digest is
    there. *)
Theorem dev_password_is_function_of_email :
  forall (md5 : Md5) (email : string) (w1 w2 : Window.t)
         (run1 run2 : DevAuthServiceImpl.t),
    Window.prompt w1 DevAuthServiceImpl.prompt_message = Some email ->
    Window.prompt w2 DevAuthServiceImpl.prompt_message = Some email ->
    let tr1 := fst (DevAuthServiceImpl.getRedirectResultAsync md5 w1 run1) in
    let tr2 := fst (DevAuthServiceImpl.getRedirectResultAsync md5 w2 run2) in
    (forall p1 p2,
        In p1 (passwords_used tr1) -> In p2 (passwords_used tr2) ->
        p1 = p2) /\
    (forall p,
        In p (passwords_used tr1) \/ In p (passwords_used tr2) ->
        exists t, md5 (Some email) = Fulfilled t p) /\
    (forall t p,
        md5 (Some email) = Fulfilled t p ->
        In p (passwords_used tr1) /\ In p (passwords_used tr2)).
Proof.
  intros md5 email w1 w2 run1 run2 H1 H2 tr1 tr2.
  assert (Hfrom : forall p,
             In p (passwords_used tr1) \/ In p (passwords_used tr2) ->
             exists t, md5 (Some email) = Fulfilled t p).
  { intros p [Hin|Hin]; apply dev_passwords_come_from_md5 in Hin;
      [rewrite H1 in Hin|rewrite H2 in Hin]; exact Hin. }
  split; [|split].
  - intros p1 p2 Hin1 Hin2.
    destruct (Hfrom p1 (or_introl Hin1)) as [t1 E1].
    destruct (Hfrom p2 (or_intror Hin2)) as [t2 E2].
    congruence.
  - exact Hfrom.
  - intros t p Hmd5. split.
    + apply dev_signs_in_with_md5 with (t := t). now rewrite H1.
    + apply dev_signs_in_with_md5 with (t := t). now rewrite H2.
Qed.

Lemma dev_password_is_function_of_email_witness :
  In "md5:a@b.com"
    (passwords_used
       (fst (DevAuthServiceImpl.getRedirectResultAsync
               Samples.md5 Samples.window
               (DevAuthServiceImpl.new Samples.fresh_emulator)))) /\
  In "md5:a@b.com"
    (passwords_used
       (fst (DevAuthServiceImpl.getRedirectResultAsync
               Samples.md5 Samples.window
               (DevAuthServiceImpl.new Samples.offline)))).
Proof.
  destruct (dev_password_is_function_of_email
              Samples.md5 "a@b.com" Samples.window Samples.window
              (DevAuthServiceImpl.new Samples.fresh_emulator)
              (DevAuthServiceImpl.new Samples.offline)
              eq_refl eq_refl)
    as (_ & _ & Hused).
  apply (Hused 0). reflexivity.
Defined.

(** ** The service *)

(** No strategy calls the backend while it fetches the redirect result. *)
Lemma strategy_getRedirectResultAsync_no_session (md5 : Md5) (w : Window.t)
  (impl : AuthServiceImpl.t) :
  begin_session_tokens
    (fst (AuthServiceImpl.getRedirectResultAsync md5 w impl)) = [].
Proof.
  unfold AuthServiceImpl.getRedirectResultAsync.
  destruct impl as [n|d|p]; unfold_async; cbn.
  - reflexivity.
  - unfold DevAuthServiceImpl.getRedirectResultAsync. unfold_async. cbn.
    destruct_answers; reflexivity.
  - reflexivity.
Qed.

Lemma begin_session_tokens_app (tr1 tr2 : list Event) :
  begin_session_tokens (tr1 ++ tr2)
    = begin_session_tokens tr1 ++ begin_session_tokens tr2.
Proof. apply flat_map_app. Qed.

(** C2: when the strategy's redirect result holds a user whose
    [getIdToken()] is fulfilled with [T], [beginSessionAsync] is called
    once, with [T], and the promise of [handleRedirectResultAsync] ends as
    the promise of that call does. *)
Theorem handleRedirectResultAsync_begins_session_with_token :
  forall (md5 : Md5) (w : Window.t) (service : AuthService.t)
         (t t' : nat) (creds : UserCredential) (u : User) (T : string),
    snd (AuthServiceImpl.getRedirectResultAsync md5 w
           (AuthService.authServiceImpl service))
      = Normal (Fulfilled t creds) ->
    user creds = Some u ->
    getIdToken u = Fulfilled t' T ->
    let r := AuthService.handleRedirectResultAsync md5 w service in
    begin_session_tokens (fst r) = [T] /\
    exists p,
      snd r = Normal p /\
      settlement p =
        settlement (AuthBackendApiService.beginSessionAsync
                      (AuthService.authBackendApiService service) T).
Proof.
  intros md5 w service t t' creds u T Hres Huser Htoken r. subst r.
  pose proof (strategy_getRedirectResultAsync_no_session md5 w
                (AuthService.authServiceImpl service)) as Hquiet.
  unfold AuthService.handleRedirectResultAsync.
  destruct (AuthServiceImpl.getRedirectResultAsync md5 w
              (AuthService.authServiceImpl service)) as [tr c].
  cbn [fst snd] in Hres, Hquiet. subst c.
  unfold_async. cbn [fst snd]. rewrite Huser. cbn [fst snd].
  rewrite Htoken. cbn [fst snd].
  split.
  - rewrite begin_session_tokens_app, Hquiet. reflexivity.
  - eexists. split; [reflexivity|].
    now rewrite !settlement_delay.
Qed.

Lemma handleRedirectResultAsync_begins_session_with_token_witness :
  begin_session_tokens
    (fst (AuthService.handleRedirectResultAsync Samples.md5 Samples.window
            (AuthService.new (Samples.constants true false)
               (Some Samples.offline) Samples.backend)))
    = ["T"].
Proof.
  apply (handleRedirectResultAsync_begins_session_with_token
           Samples.md5 Samples.window
           (AuthService.new (Samples.constants true false)
              (Some Samples.offline) Samples.backend)
           2 7 {| user := Some Samples.alice |} Samples.alice "T"
           eq_refl eq_refl eq_refl).
Defined.

(** C3: when the strategy's redirect result holds no user, the promise of
    [handleRedirectResultAsync] is rejected with [null], nothing else, and
    [beginSessionAsync] is not called. *)
Theorem handleRedirectResultAsync_rejects_without_user :
  forall (md5 : Md5) (w : Window.t) (service : AuthService.t)
         (t : nat) (creds : UserCredential),
    snd (AuthServiceImpl.getRedirectResultAsync md5 w
           (AuthService.authServiceImpl service))
      = Normal (Fulfilled t creds) ->
    user creds = None ->
    let r := AuthService.handleRedirectResultAsync md5 w service in
    snd r = Normal (Rejected t RNull) /\
    begin_session_tokens (fst r) = [].
Proof.
  intros md5 w service t creds Hres Huser r. subst r.
  pose proof (strategy_getRedirectResultAsync_no_session md5 w
                (AuthService.authServiceImpl service)) as Hquiet.
  unfold AuthService.handleRedirectResultAsync.
  destruct (AuthServiceImpl.getRedirectResultAsync md5 w
              (AuthService.authServiceImpl service)) as [tr c].
  cbn [fst snd] in Hres, Hquiet. subst c.
  unfold_async. cbn [fst snd]. rewrite Huser. cbn [fst snd delay].
  rewrite Nat.max_0_r, app_nil_r. now split.
Qed.

Lemma handleRedirectResultAsync_rejects_without_user_witness :
  snd (AuthService.handleRedirectResultAsync Samples.md5 Samples.window
         (AuthService.new (Samples.constants true false)
            (Some Samples.fresh_emulator) Samples.backend))
    = Normal (Rejected 2 RNull).
Proof.
  apply (handleRedirectResultAsync_rejects_without_user
           Samples.md5 Samples.window
           (AuthService.new (Samples.constants true false)
              (Some Samples.fresh_emulator) Samples.backend)
           2 {| user := None |} eq_refl eq_refl).
Defined.

(** The strategy's [signOutAsync] never throws: it answers a promise, the
    rejected one in the Null strategy and AngularFireAuth's otherwise. *)
Lemma strategy_signOutAsync_returns (impl : AuthServiceImpl.t) :
  AuthServiceImpl.signOutAsync impl =
    match impl with
    | AuthServiceImpl.Null n =>
        ([StrategyCall MSignOut],
         Normal (Rejected 0 (RError (NullAuthServiceImpl.error n))))
    | AuthServiceImpl.Dev d =>
        ([StrategyCall MSignOut; FireSignOut],
         Normal (AngularFireAuth.signOut
                   (DevAuthServiceImpl.angularFireAuth d)))
    | AuthServiceImpl.Prod p =>
        ([StrategyCall MSignOut; FireSignOut],
         Normal (AngularFireAuth.signOut
                   (ProdAuthServiceImpl.angularFireAuth p)))
    end.
Proof. now destruct impl. Qed.

Lemma Promise_all_fulfilled {A B} (p : Promise A) (q : Promise B) :
  is_fulfilled (Promise_all p q) = is_fulfilled p && is_fulfilled q.
Proof.
  destruct p, q; cbn; try reflexivity.
  now destruct (Nat.leb t t0).
Qed.


Lemma signOutAsync_unfold (service : AuthService.t) :
  exists tr ps,
    AuthServiceImpl.signOutAsync (AuthService.authServiceImpl service)
      = (tr, Normal ps) /\
    AuthService.signOutAsync service =
      (tr ++ [EndSession],
       Normal (joined ps (AuthBackendApiService.endSessionAsync
                            (AuthService.authBackendApiService service)))).
Proof.
  unfold AuthService.signOutAsync.
  rewrite strategy_signOutAsync_returns.
  destruct (AuthService.authServiceImpl service) as [n|d|p];
    eexists; eexists; (split; [reflexivity|]);
    unfold_async; unfold joined; cbn [fst snd];
    match goal with
    | |- context [Promise_all ?x ?y] => destruct (Promise_all x y)
    end; cbn; rewrite ?app_nil_r; reflexivity.
Qed.





(** * Further properties of the file *)

(** ** Helpers *)

Lemma delay_max {A} (t u : nat) (p : Promise A) :
  delay t (delay u p) = delay (Nat.max t u) p.
Proof. destruct p; cbn; f_equal; lia. Qed.

(** No strategy method throws: each answers a promise. *)
Lemma strategy_getRedirectResultAsync_returns (md5 : Md5) (w : Window.t)
  (impl : AuthServiceImpl.t) :
  exists tr p,
    AuthServiceImpl.getRedirectResultAsync md5 w impl = (tr, Normal p).
Proof.
  destruct impl; eexists; eexists; reflexivity.
Qed.

(** What [handleRedirectResultAsync] does, by what the strategy and the
    user's [getIdToken()] answer. *)
Lemma handleRedirectResultAsync_unfold (md5 : Md5) (w : Window.t)
  (service : AuthService.t) (tr : list Event)
  (p : Promise UserCredential) :
  AuthServiceImpl.getRedirectResultAsync md5 w
    (AuthService.authServiceImpl service) = (tr, Normal p) ->
  AuthService.handleRedirectResultAsync md5 w service =
    match p with
    | Fulfilled t creds =>
        match user creds with
        | Some u =>
            match getIdToken u with
            | Fulfilled t' tok =>
                (tr ++ [GetIdToken; BeginSession tok],
                 Normal (delay (Nat.max t t')
                           (AuthBackendApiService.beginSessionAsync
                              (AuthService.authBackendApiService service)
                              tok)))
            | Rejected t' r =>
                (tr ++ [GetIdToken], Normal (Rejected (Nat.max t t') r))
            | Pending => (tr ++ [GetIdToken], Normal Pending)
            end
        | None => (tr, Normal (Rejected t RNull))
        end
    | Rejected t r => (tr, Normal (Rejected t r))
    | Pending => (tr, Normal Pending)
    end.
Proof.
  intro Hs. unfold AuthService.handleRedirectResultAsync. rewrite Hs.
  unfold_async. cbn [fst snd].
  destruct p as [t creds|t r|]; cbn [fst snd]; try reflexivity.
  destruct (user creds) as [u|]; cbn [fst snd delay].
  - destruct (getIdToken u) as [t' tok|t' r|]; cbn [fst snd delay app].
    + rewrite delay_max. reflexivity.
    + reflexivity.
    + reflexivity.
  - now rewrite Nat.max_0_r, app_nil_r.
Qed.

(** ** Configuration *)

(** X1: the emulator address is only ever defined together with the
    Firebase options: when [firebaseEmulatorConfig] is defined so is
    [firebaseConfig], and when [firebaseConfig] is [undefined] the emulator
    is reported off and has no address. *)
Theorem emulator_config_needs_firebase_config :
  forall c : AppConstants,
    (AuthService.firebaseEmulatorConfig c <> None ->
     AuthService.firebaseConfig c <> None) /\
    (AuthService.firebaseConfig c = None ->
     AuthService.firebaseEmulatorIsEnabled c = false /\
     AuthService.firebaseEmulatorConfig c = None).
Proof.
  intro c.
  unfold AuthService.firebaseEmulatorConfig, AuthService.firebaseConfig,
    AuthService.firebaseEmulatorIsEnabled, AuthService.firebaseAuthIsEnabled.
  destruct (FIREBASE_AUTH_ENABLED c), (EMULATOR_MODE c); cbn;
    split; intros H; try split; congruence.
Qed.

Lemma emulator_config_needs_firebase_config_witness :
  AuthService.firebaseConfig (Samples.constants true true) <> None /\
  AuthService.firebaseEmulatorConfig (Samples.constants false true) = None.
Proof.
  split.
  - apply (proj1 (emulator_config_needs_firebase_config
                    (Samples.constants true true))).
    discriminate.
  - apply (proj2 (emulator_config_needs_firebase_config
                    (Samples.constants false true))).
    reflexivity.
Defined.

(** X2: outside emulator mode no operation of a service the constructor
    built prompts the operator or hands a password to AngularFireAuth,
    whatever was injected and whatever the collaborators answer. *)
Theorem no_password_sign_in_outside_emulator :
  forall (c : AppConstants) (angularFireAuth : option AngularFireAuth.t)
         (backend : AuthBackendApiService.t) (md5 : Md5) (w : Window.t),
    AuthService.firebaseEmulatorIsEnabled c = false ->
    let service := AuthService.new c angularFireAuth backend in
    let handled := fst (AuthService.handleRedirectResultAsync md5 w service) in
    let signed_in := fst (AuthService.signInWithRedirectAsync service) in
    let signed_out := fst (AuthService.signOutAsync service) in
    passwords_used handled = [] /\ count is_prompt handled = 0 /\
    passwords_used signed_in = [] /\ count is_prompt signed_in = 0 /\
    passwords_used signed_out = [] /\ count is_prompt signed_out = 0.
Proof.
  intros c angularFireAuth backend md5 w Hoff.
  unfold AuthService.new. rewrite Hoff.
  destruct angularFireAuth as [fa|]; cbv zeta.
  - unfold AuthService.handleRedirectResultAsync,
      AuthService.signInWithRedirectAsync, AuthService.signOutAsync.
    unfold_async. cbn.
    destruct (AngularFireAuth.getRedirectResult fa) as [t creds|t r|]; cbn;
      [destruct (user creds) as [u|]; cbn;
       [destruct (getIdToken u); cbn|]| |];
      destruct (Promise_all (AngularFireAuth.signOut fa)
                  (AuthBackendApiService.endSessionAsync backend));
      cbn; repeat split.
  - unfold AuthService.handleRedirectResultAsync,
      AuthService.signInWithRedirectAsync, AuthService.signOutAsync.
    unfold_async. cbn.
    destruct (AuthBackendApiService.endSessionAsync backend); cbn;
      repeat split.
Qed.

Lemma no_password_sign_in_outside_emulator_witness :
  passwords_used
    (fst (AuthService.handleRedirectResultAsync Samples.md5 Samples.window
            (AuthService.new (Samples.constants true false)
               (Some Samples.offline) Samples.backend))) = [].
Proof.
  apply (no_password_sign_in_outside_emulator
           (Samples.constants true false) (Some Samples.offline)
           Samples.backend Samples.md5 Samples.window eq_refl).
Defined.

(** ** Sign-in *)

(** X3: what [signInWithRedirectAsync] of a constructed service does, by
    configuration.  Nothing injected: rejected with the Null strategy's
    error.  Emulator mode: fulfilled at once without any call on
    AngularFireAuth.  Otherwise: one [signInWithRedirect] call, with a
    Google provider asking for the email scope and for the account chooser,
    whose promise is the answer.  The backend is never called. *)
Theorem signInWithRedirectAsync_by_configuration :
  forall (c : AppConstants) (angularFireAuth : option AngularFireAuth.t)
         (backend : AuthBackendApiService.t),
    AuthService.signInWithRedirectAsync
      (AuthService.new c angularFireAuth backend)
    = match angularFireAuth with
      | None =>
          ([StrategyCall MSignInWithRedirect],
           Normal (Rejected 0 unavailable))
      | Some fa =>
          if FIREBASE_AUTH_ENABLED c && EMULATOR_MODE c
          then ([StrategyCall MSignInWithRedirect], Normal (Fulfilled 0 tt))
          else ([StrategyCall MSignInWithRedirect;
                 SignInWithRedirect google_provider],
                Normal (AngularFireAuth.signInWithRedirect
                          fa google_provider))
      end.
Proof.
  intros c angularFireAuth backend.
  unfold AuthService.new, AuthService.firebaseEmulatorIsEnabled,
    AuthService.firebaseAuthIsEnabled.
  destruct angularFireAuth as [fa|]; [|reflexivity].
  destruct (FIREBASE_AUTH_ENABLED c && EMULATOR_MODE c); reflexivity.
Qed.

(** ** The Dev strategy, beyond the account-creation path *)

(** X4: one call of the Dev strategy's [getRedirectResultAsync] prompts
    once, signs in at most once and creates an account at most once, in
    that order and with one email and one password: nothing is retried,
    whatever the digest and AngularFireAuth answer. *)
Theorem dev_getRedirectResultAsync_never_retries :
  forall (md5 : Md5) (w : Window.t) (this : DevAuthServiceImpl.t),
    let email := Window.prompt w DevAuthServiceImpl.prompt_message in
    let tr := fst (DevAuthServiceImpl.getRedirectResultAsync md5 w this) in
    tr = [Prompt DevAuthServiceImpl.prompt_message] \/
    exists password,
      tr = [Prompt DevAuthServiceImpl.prompt_message;
            SignInWithEmailAndPassword email password] \/
      tr = [Prompt DevAuthServiceImpl.prompt_message;
            SignInWithEmailAndPassword email password;
            CreateUserWithEmailAndPassword email password].
Proof.
  intros md5 w this email tr. subst tr.
  unfold DevAuthServiceImpl.getRedirectResultAsync. unfold_async. cbn.
  fold email.
  destruct (md5 email) as [t pw|t r|]; cbn; try (now left).
  right. exists pw.
  destruct_answers; (now left) || (now right).
Qed.

(** X5: when the digest of the email is not delivered, for instance
    because the operator cancelled the prompt and [md5] refuses [null],
    AngularFireAuth is not contacted at all and the promise ends as the
    digest's did: rejected with the same reason, or never settled. *)
Theorem dev_getRedirectResultAsync_without_digest :
  forall (md5 : Md5) (w : Window.t) (this : DevAuthServiceImpl.t),
    let email := Window.prompt w DevAuthServiceImpl.prompt_message in
    let r := DevAuthServiceImpl.getRedirectResultAsync md5 w this in
    is_fulfilled (md5 email) = false ->
    fst r = [Prompt DevAuthServiceImpl.prompt_message] /\
    count is_fire_call (fst r) = 0 /\
    exists p,
      snd r = Normal p /\
      is_fulfilled p = false /\
      (forall t reason, md5 email = Rejected t reason ->
                        p = Rejected t reason) /\
      (md5 email = Pending -> p = Pending).
Proof.
  intros md5 w this email r Hno. subst r.
  unfold DevAuthServiceImpl.getRedirectResultAsync. unfold_async. cbn.
  fold email.
  destruct (md5 email) as [t pw|t reason|]; [discriminate| |]; cbn;
    repeat split; eexists; repeat split; congruence.
Qed.

Lemma dev_getRedirectResultAsync_without_digest_witness :
  DevAuthServiceImpl.getRedirectResultAsync Samples.md5 Cases.cancelled
    (DevAuthServiceImpl.new Samples.fresh_emulator)
  = ([Prompt DevAuthServiceImpl.prompt_message],
     Normal (Rejected 0 (RError (new_Error "Invalid data type!")))).
Proof.
  pose proof (dev_getRedirectResultAsync_without_digest
                Samples.md5 Cases.cancelled
                (DevAuthServiceImpl.new Samples.fresh_emulator) eq_refl)
    as (Htr & _ & p & Hp & _ & Hrej & _).
  rewrite (Hrej 0 (RError (new_Error "Invalid data type!")) eq_refl) in Hp.
  rewrite (surjective_pairing
             (DevAuthServiceImpl.getRedirectResultAsync Samples.md5
                Cases.cancelled
                (DevAuthServiceImpl.new Samples.fresh_emulator))).
  now rewrite Htr, Hp.
Defined.

(** X6: when the sign-in succeeds its credential is the result, no sooner
    than the digest and the sign-in were there, and no account is created;
    when the sign-in never settles neither does the result, and no account
    is created either. *)
Theorem dev_getRedirectResultAsync_known_account :
  forall (md5 : Md5) (w : Window.t) (this : DevAuthServiceImpl.t)
         (t : nat) (password : string),
    let email := Window.prompt w DevAuthServiceImpl.prompt_message in
    let fa := DevAuthServiceImpl.angularFireAuth this in
    let r := DevAuthServiceImpl.getRedirectResultAsync md5 w this in
    md5 email = Fulfilled t password ->
    (forall u creds,
        AngularFireAuth.signInWithEmailAndPassword fa email password
          = Fulfilled u creds ->
        r = ([Prompt DevAuthServiceImpl.prompt_message;
              SignInWithEmailAndPassword email password],
             Normal (Fulfilled (Nat.max t u) creds))) /\
    (AngularFireAuth.signInWithEmailAndPassword fa email password = Pending ->
     r = ([Prompt DevAuthServiceImpl.prompt_message;
           SignInWithEmailAndPassword email password],
          Normal Pending)).
Proof.
  intros md5 w this t password email fa r Hmd5. subst r.
  unfold DevAuthServiceImpl.getRedirectResultAsync. fold fa.
  unfold_async. cbn. fold email. rewrite Hmd5. cbn.
  split.
  - intros u creds Hsign. rewrite Hsign. cbn.
    now rewrite Nat.max_0_r.
  - intros Hsign. now rewrite Hsign.
Qed.

Lemma dev_getRedirectResultAsync_known_account_witness :
  DevAuthServiceImpl.getRedirectResultAsync Samples.md5 Samples.window
    (DevAuthServiceImpl.new Cases.known)
  = ([Prompt DevAuthServiceImpl.prompt_message;
      SignInWithEmailAndPassword (Some "a@b.com") "md5:a@b.com"],
     Normal (Fulfilled 3 {| user := Some Samples.alice |})).
Proof.
  apply (proj1 (dev_getRedirectResultAsync_known_account
                  Samples.md5 Samples.window
                  (DevAuthServiceImpl.new Cases.known)
                  0 "md5:a@b.com" eq_refl)
           3 {| user := Some Samples.alice |} eq_refl).
Defined.

(** X7: a sign-in rejected with [null] is not handed on: the catch block
    reads [err.code], which throws, so the result is rejected with a
    TypeError instead and no account is created. *)
Theorem dev_getRedirectResultAsync_null_is_replaced :
  forall (md5 : Md5) (w : Window.t) (this : DevAuthServiceImpl.t)
         (t u : nat) (password : string),
    let email := Window.prompt w DevAuthServiceImpl.prompt_message in
    let r := DevAuthServiceImpl.getRedirectResultAsync md5 w this in
    md5 email = Fulfilled t password ->
    AngularFireAuth.signInWithEmailAndPassword
      (DevAuthServiceImpl.angularFireAuth this) email password
      = Rejected u RNull ->
    snd r = Normal (Rejected (Nat.max t u) (RError TypeError_code_of_null)) /\
    snd r <> Normal (Rejected (Nat.max t u) RNull) /\
    account_creations (fst r) = [].
Proof.
  intros md5 w this t u password email r Hmd5 Hsign. subst r.
  unfold DevAuthServiceImpl.getRedirectResultAsync. unfold_async. cbn.
  fold email. rewrite Hmd5. cbn. rewrite Hsign. cbn.
  rewrite Nat.max_0_r. repeat split. discriminate.
Qed.

Lemma dev_getRedirectResultAsync_null_is_replaced_witness :
  snd (DevAuthServiceImpl.getRedirectResultAsync Samples.md5 Samples.window
         (DevAuthServiceImpl.new Cases.nulls))
  = Normal (Rejected 3 (RError TypeError_code_of_null)).
Proof.
  apply (dev_getRedirectResultAsync_null_is_replaced
           Samples.md5 Samples.window (DevAuthServiceImpl.new Cases.nulls)
           0 3 "md5:a@b.com" eq_refl eq_refl).
Defined.

(** ** Redirect handling, beyond the two outcomes of the redirect *)

(** While it fetches the redirect result no strategy asks for a token or
    calls the backend. *)
Lemma strategy_getRedirectResultAsync_quiet (md5 : Md5) (w : Window.t)
  (impl : AuthServiceImpl.t) :
  let tr := fst (AuthServiceImpl.getRedirectResultAsync md5 w impl) in
  count is_get_id_token tr = 0 /\ count is_backend_call tr = 0.
Proof.
  unfold AuthServiceImpl.getRedirectResultAsync.
  destruct impl as [n|d|p]; unfold_async; cbn.
  - now split.
  - unfold DevAuthServiceImpl.getRedirectResultAsync. unfold_async. cbn.
    destruct_answers; now split.
  - now split.
Qed.

Lemma count_app (f : Event -> bool) (tr1 tr2 : list Event) :
  count f (tr1 ++ tr2) = count f tr1 + count f tr2.
Proof. unfold count. now rewrite filter_app, length_app. Qed.

(** X8: when the strategy's redirect result is rejected or never settles,
    [handleRedirectResultAsync] ends the same way, with the same reason,
    and makes no further call: no token is asked for and the backend is
    not called. *)
Theorem handleRedirectResultAsync_hands_on_strategy_failure :
  forall (md5 : Md5) (w : Window.t) (service : AuthService.t)
         (p : Promise UserCredential),
    let s := AuthServiceImpl.getRedirectResultAsync md5 w
               (AuthService.authServiceImpl service) in
    let r := AuthService.handleRedirectResultAsync md5 w service in
    snd s = Normal p ->
    is_fulfilled p = false ->
    fst r = fst s /\
    count is_get_id_token (fst r) = 0 /\
    count is_backend_call (fst r) = 0 /\
    exists q,
      snd r = Normal q /\
      (forall t reason, p = Rejected t reason -> q = Rejected t reason) /\
      (p = Pending -> q = Pending).
Proof.
  intros md5 w service p s r Hs Hno. subst r.
  destruct (strategy_getRedirectResultAsync_quiet md5 w
              (AuthService.authServiceImpl service)) as [Htok Hback].
  fold s in Htok, Hback.
  rewrite (handleRedirectResultAsync_unfold md5 w service (fst s) p).
  - destruct p as [t creds|t reason|]; [discriminate| |]; cbn [fst snd];
      repeat split; try assumption; eexists; repeat split; congruence.
  - rewrite <- Hs. apply surjective_pairing.
Qed.

Lemma handleRedirectResultAsync_hands_on_strategy_failure_witness :
  exists q,
    snd (AuthService.handleRedirectResultAsync Samples.md5 Samples.window
           (AuthService.new (Samples.constants true false)
              (Some Cases.known) Samples.backend)) = Normal q /\
    q = Rejected 2 (RError Samples.network_failed).
Proof.
  destruct (handleRedirectResultAsync_hands_on_strategy_failure
              Samples.md5 Samples.window
              (AuthService.new (Samples.constants true false)
                 (Some Cases.known) Samples.backend)
              (Rejected 2 (RError Samples.network_failed))
              eq_refl eq_refl)
    as (_ & _ & _ & q & Hq & Hrej & _).
  exists q. split; [exact Hq|]. now apply Hrej.
Defined.

(** X9: when the user's token cannot be fetched, the session is not begun:
    [getIdToken()] is called once, [beginSessionAsync] is not called, and
    the result is rejected with the token's reason, or never settles when
    the token never comes. *)
Theorem handleRedirectResultAsync_without_token :
  forall (md5 : Md5) (w : Window.t) (service : AuthService.t)
         (t : nat) (creds : UserCredential) (u : User),
    let r := AuthService.handleRedirectResultAsync md5 w service in
    snd (AuthServiceImpl.getRedirectResultAsync md5 w
           (AuthService.authServiceImpl service))
      = Normal (Fulfilled t creds) ->
    user creds = Some u ->
    is_fulfilled (getIdToken u) = false ->
    count is_get_id_token (fst r) = 1 /\
    count is_backend_call (fst r) = 0 /\
    exists q,
      snd r = Normal q /\
      (forall t' reason, getIdToken u = Rejected t' reason ->
                         q = Rejected (Nat.max t t') reason) /\
      (getIdToken u = Pending -> q = Pending).
Proof.
  intros md5 w service t creds u r Hs Huser Hno. subst r.
  destruct (strategy_getRedirectResultAsync_quiet md5 w
              (AuthService.authServiceImpl service)) as [Htok Hback].
  rewrite (handleRedirectResultAsync_unfold md5 w service
             (fst (AuthServiceImpl.getRedirectResultAsync md5 w
                     (AuthService.authServiceImpl service)))
             (Fulfilled t creds)).
  - rewrite Huser.
    destruct (getIdToken u) as [t' tok|t' reason|]; [discriminate| |];
      cbn [fst snd]; rewrite !count_app, Htok, Hback;
      repeat split; eexists; repeat split; congruence.
  - rewrite <- Hs. apply surjective_pairing.
Qed.

Lemma handleRedirectResultAsync_without_token_witness :
  exists q,
    snd (AuthService.handleRedirectResultAsync Samples.md5 Samples.window
           (AuthService.new (Samples.constants true false)
              (Some Cases.nulls) Samples.backend)) = Normal q /\
    q = Rejected 8 (RError Cases.token_expired).
Proof.
  destruct (handleRedirectResultAsync_without_token
              Samples.md5 Samples.window
              (AuthService.new (Samples.constants true false)
                 (Some Cases.nulls) Samples.backend)
              2 {| user := Some Cases.bob |} Cases.bob
              eq_refl eq_refl eq_refl)
    as (_ & _ & q & Hq & Hrej & _).
  exists q. split; [exact Hq|].
  exact (Hrej 8 (RError Cases.token_expired) eq_refl).
Defined.

(** X10: one call of [handleRedirectResultAsync] begins at most one
    session, and only with a token that [getIdToken()] of the user in the
    strategy's redirect result delivered. *)
Theorem handleRedirectResultAsync_session_token_provenance :
  forall (md5 : Md5) (w : Window.t) (service : AuthService.t),
    let s := AuthServiceImpl.getRedirectResultAsync md5 w
               (AuthService.authServiceImpl service) in
    let r := AuthService.handleRedirectResultAsync md5 w service in
    begin_session_tokens (fst r) = [] \/
    exists t creds u t' tok,
      snd s = Normal (Fulfilled t creds) /\
      user creds = Some u /\
      getIdToken u = Fulfilled t' tok /\
      begin_session_tokens (fst r) = [tok].
Proof.
  intros md5 w service s r. subst r.
  pose proof (strategy_getRedirectResultAsync_no_session md5 w
                (AuthService.authServiceImpl service)) as Hquiet.
  destruct (strategy_getRedirectResultAsync_returns md5 w
              (AuthService.authServiceImpl service)) as (tr & p & Hs).
  rewrite (handleRedirectResultAsync_unfold md5 w service tr p Hs).
  subst s. rewrite Hs in *. cbn [fst snd] in *.
  destruct p as [t creds|t reason|]; cbn [fst]; try (now left).
  destruct (user creds) as [u|] eqn:Huser; cbn [fst]; try (now left).
  destruct (getIdToken u) as [t' tok|t' reason|] eqn:Htoken; cbn [fst];
    try (left; now rewrite begin_session_tokens_app, Hquiet).
  right. exists t, creds, u, t', tok. repeat split; try assumption.
  now rewrite begin_session_tokens_app, Hquiet.
Qed.

(** X11: on the successful path the calls come in order, the strategy's,
    then [getIdToken()], then [beginSessionAsync], and the result does not
    settle before the redirect result and the token were there. *)
Theorem handleRedirectResultAsync_order_and_timing :
  forall (md5 : Md5) (w : Window.t) (service : AuthService.t)
         (t t' : nat) (creds : UserCredential) (u : User) (T : string),
    let s := AuthServiceImpl.getRedirectResultAsync md5 w
               (AuthService.authServiceImpl service) in
    let r := AuthService.handleRedirectResultAsync md5 w service in
    snd s = Normal (Fulfilled t creds) ->
    user creds = Some u ->
    getIdToken u = Fulfilled t' T ->
    fst r = fst s ++ [GetIdToken; BeginSession T] /\
    (forall v, snd r = Normal (Fulfilled v tt) -> t <= v /\ t' <= v) /\
    (forall v reason,
        snd r = Normal (Rejected v reason) -> t <= v /\ t' <= v).
Proof.
  intros md5 w service t t' creds u T s r Hs Huser Htoken. subst r.
  rewrite (handleRedirectResultAsync_unfold md5 w service (fst s)
             (Fulfilled t creds)).
  - rewrite Huser, Htoken. cbn [fst snd].
    split; [reflexivity|].
    destruct (AuthBackendApiService.beginSessionAsync
                (AuthService.authBackendApiService service) T)
      as [x a|x reason|]; cbn; split; intros; try discriminate.
    + assert (v = Nat.max (Nat.max t t') x) by congruence. lia.
    + assert (v = Nat.max (Nat.max t t') x) by congruence. lia.
  - rewrite <- Hs. apply surjective_pairing.
Qed.

Lemma handleRedirectResultAsync_order_and_timing_witness :
  fst (AuthService.handleRedirectResultAsync Samples.md5 Samples.window
         (AuthService.new (Samples.constants true false)
            (Some Samples.offline) Samples.backend))
  = [StrategyCall MGetRedirectResult; GetRedirectResult;
     GetIdToken; BeginSession "T"].
Proof.
  apply (proj1 (handleRedirectResultAsync_order_and_timing
                  Samples.md5 Samples.window
                  (AuthService.new (Samples.constants true false)
                     (Some Samples.offline) Samples.backend)
                  2 7 {| user := Some Samples.alice |} Samples.alice "T"
                  eq_refl eq_refl eq_refl)).
Defined.

(** With nothing injected, [handleRedirectResultAsync] is rejected
    with the Null strategy's error for every configuration, and neither
    the window nor the backend is touched. *)
Lemma handleRedirectResultAsync_without_AngularFireAuth :
  forall (c : AppConstants) (backend : AuthBackendApiService.t)
         (md5 : Md5) (w : Window.t),
    AuthService.handleRedirectResultAsync md5 w
      (AuthService.new c None backend)
    = ([StrategyCall MGetRedirectResult], Normal (Rejected 0 unavailable)).
Proof. reflexivity. Qed.

(** ** Sign-out, beyond the join *)

(** X12: with nothing injected, [signOutAsync] fails with the Null
    strategy's error whatever the backend answers, also when the backend
    ends the session successfully or fails itself; the backend is asked
    to end the session all the same, once. *)
Theorem signOutAsync_without_AngularFireAuth_always_fails :
  forall (c : AppConstants) (backend : AuthBackendApiService.t),
    AuthService.signOutAsync (AuthService.new c None backend)
    = ([StrategyCall MSignOut; EndSession],
       Normal (Rejected 0 unavailable)).
Proof.
  intros c backend.
  unfold AuthService.signOutAsync. unfold_async. cbn.
  now destruct (AuthBackendApiService.endSessionAsync backend).
Qed.

(** X13: once AngularFireAuth is injected, sign-out does not depend on the
    configuration: the Dev and the Prod strategy sign out alike, with one
    [signOut] call on the injected object. *)
Theorem signOutAsync_independent_of_flags :
  forall (c1 c2 : AppConstants) (fa : AngularFireAuth.t)
         (backend : AuthBackendApiService.t),
    AuthService.signOutAsync (AuthService.new c1 (Some fa) backend)
    = AuthService.signOutAsync (AuthService.new c2 (Some fa) backend) /\
    AuthService.signOutAsync (AuthService.new c1 (Some fa) backend)
    = ([StrategyCall MSignOut; FireSignOut; EndSession],
       Normal (joined (AngularFireAuth.signOut fa)
                 (AuthBackendApiService.endSessionAsync backend))).
Proof.
  intros c1 c2 fa backend.
  assert (H : forall c,
             AuthService.signOutAsync (AuthService.new c (Some fa) backend)
             = ([StrategyCall MSignOut; FireSignOut; EndSession],
                Normal (joined (AngularFireAuth.signOut fa)
                          (AuthBackendApiService.endSessionAsync backend)))).
  { intro c. unfold AuthService.new.
    destruct (AuthService.firebaseEmulatorIsEnabled c);
      unfold AuthService.signOutAsync, joined; unfold_async; cbn;
      now destruct (Promise_all (AngularFireAuth.signOut fa)
                      (AuthBackendApiService.endSessionAsync backend)). }
  split; [now rewrite !H | apply H].
Qed.

(** X14: [signOutAsync] does not report success early: when its promise is
    fulfilled, both the strategy's sign-out and the backend's
    [endSessionAsync] were fulfilled, and it is fulfilled at the later of
    their two instants. *)
Theorem signOutAsync_succeeds_after_both :
  forall (service : AuthService.t) (v : nat),
    snd (AuthService.signOutAsync service) = Normal (Fulfilled v tt) ->
    exists t1 t2,
      snd (AuthServiceImpl.signOutAsync (AuthService.authServiceImpl service))
        = Normal (Fulfilled t1 tt) /\
      AuthBackendApiService.endSessionAsync
        (AuthService.authBackendApiService service) = Fulfilled t2 tt /\
      v = Nat.max t1 t2.
Proof.
  intros service v Hv.
  destruct (signOutAsync_unfold service) as (tr & ps & Hs & Hr).
  rewrite Hr in Hv. rewrite Hs. cbn [snd] in *.
  unfold joined in Hv.
  destruct ps as [t1 []|t1 r1|],
    (AuthBackendApiService.endSessionAsync
       (AuthService.authBackendApiService service)) as [t2 []|t2 r2|];
    cbn in Hv; try discriminate.
  - exists t1, t2. repeat split. injection Hv as <-. lia.
  - destruct (Nat.leb t1 t2); discriminate.
Qed.

Lemma signOutAsync_succeeds_after_both_witness :
  exists t1 t2,
    snd (AuthServiceImpl.signOutAsync
           (AuthService.authServiceImpl
              (AuthService.new (Samples.constants true true)
                 (Some Cases.known) Cases.backend_up)))
      = Normal (Fulfilled t1 tt) /\
    AuthBackendApiService.endSessionAsync Cases.backend_up
      = Fulfilled t2 tt /\
    6 = Nat.max t1 t2.
Proof.
  apply (signOutAsync_succeeds_after_both
           (AuthService.new (Samples.constants true true)
              (Some Cases.known) Cases.backend_up) 6 eq_refl).
Defined.

(** X15: nothing times out: when one of the two calls never settles and
    the other is not rejected, [signOutAsync] never settles. *)
Theorem signOutAsync_stalls_with_a_stalled_call :
  forall (service : AuthService.t) (ps : Promise unit),
    let pb := AuthBackendApiService.endSessionAsync
                (AuthService.authBackendApiService service) in
    snd (AuthServiceImpl.signOutAsync (AuthService.authServiceImpl service))
      = Normal ps ->
    (ps = Pending /\ is_rejected pb = false) \/
    (pb = Pending /\ is_rejected ps = false) ->
    snd (AuthService.signOutAsync service) = Normal Pending.
Proof.
  intros service ps pb Hps Hstall.
  destruct (signOutAsync_unfold service) as (tr & ps' & Hs & Hr).
  rewrite Hs in Hps. cbn [snd] in Hps. injection Hps as ->.
  rewrite Hr. cbn [snd]. fold pb. unfold joined.
  destruct Hstall as [[-> Hb]|[-> Ha]].
  - destruct pb; try discriminate; reflexivity.
  - destruct ps; try discriminate; reflexivity.
Qed.

Lemma signOutAsync_stalls_with_a_stalled_call_witness :
  snd (AuthService.signOutAsync
         (AuthService.new (Samples.constants true false)
            (Some Cases.known)
            {| AuthBackendApiService.beginSessionAsync :=
                 fun _ => Fulfilled 9 tt;
               AuthBackendApiService.endSessionAsync := Pending |}))
  = Normal Pending.
Proof.
  apply (signOutAsync_stalls_with_a_stalled_call
           (AuthService.new (Samples.constants true false)
              (Some Cases.known)
              {| AuthBackendApiService.beginSessionAsync :=
                   fun _ => Fulfilled 9 tt;
                 AuthBackendApiService.endSessionAsync := Pending |})
           (Fulfilled 4 tt) eq_refl).
  right. split; reflexivity.
Defined.

(** ** Which operation calls what *)

(** X16: the operations keep to their collaborators.  Sign-in calls the
    backend not at all; sign-out never begins a session and asks for no
    token; redirect handling never ends a session; and none of sign-in and
    sign-out prompts the operator. *)
Theorem operations_keep_to_their_calls :
  forall (md5 : Md5) (w : Window.t) (service : AuthService.t),
    let handled := fst (AuthService.handleRedirectResultAsync md5 w service) in
    let signed_in := fst (AuthService.signInWithRedirectAsync service) in
    let signed_out := fst (AuthService.signOutAsync service) in
    count is_backend_call signed_in = 0 /\
    count is_get_id_token signed_in = 0 /\
    count is_prompt signed_in = 0 /\
    begin_session_tokens signed_out = [] /\
    count is_get_id_token signed_out = 0 /\
    count is_prompt signed_out = 0 /\
    count is_end_session handled = 0 /\
    count is_fire_sign_out handled = 0.
Proof.
  intros md5 w service handled signed_in signed_out.
  assert (Hin : count is_backend_call signed_in = 0 /\
                count is_get_id_token signed_in = 0 /\
                count is_prompt signed_in = 0).
  { subst signed_in. unfold AuthService.signInWithRedirectAsync.
    destruct (AuthService.authServiceImpl service); repeat split. }
  assert (Hout : begin_session_tokens signed_out = [] /\
                 count is_get_id_token signed_out = 0 /\
                 count is_prompt signed_out = 0).
  { subst signed_out.
    destruct (signOutAsync_unfold service) as (tr & ps & Hs & Hr).
    rewrite Hr. cbn [fst].
    rewrite strategy_signOutAsync_returns in Hs.
    destruct (AuthService.authServiceImpl service);
      injection Hs as <- _; repeat split. }
  assert (Hh : count is_end_session handled = 0 /\
               count is_fire_sign_out handled = 0).
  { subst handled.
    destruct (strategy_getRedirectResultAsync_returns md5 w
                (AuthService.authServiceImpl service)) as (tr & p & Hs).
    rewrite (handleRedirectResultAsync_unfold md5 w service tr p Hs).
    assert (Htr : count is_end_session tr = 0 /\
                  count is_fire_sign_out tr = 0).
    { replace tr with (fst (AuthServiceImpl.getRedirectResultAsync md5 w
                              (AuthService.authServiceImpl service)))
        by now rewrite Hs.
      unfold AuthServiceImpl.getRedirectResultAsync.
      destruct (AuthService.authServiceImpl service) as [n|d|q];
        unfold_async; cbn; try (now split).
      unfold DevAuthServiceImpl.getRedirectResultAsync. unfold_async. cbn.
      destruct_answers; now split. }
    destruct Htr as [He Hf].
    destruct p as [t creds|t r|]; cbn [fst]; try (now split).
    destruct (user creds) as [u|]; cbn [fst]; try (now split).
    destruct (getIdToken u); cbn [fst]; rewrite !count_app, He, Hf;
      now split. }
  tauto.
Qed.

(** ** Emulator mode, end to end *)

(** X17: in emulator mode the account that was just created is the one
    the session is begun for.  When the prompted email is unknown to the
    emulator and the account creation delivers a user, the service prompts,
    fails to sign in, creates the account, fetches that user's token and
    begins the session with it, in this order, and ends as
    [beginSessionAsync] does. *)
Theorem emulator_first_sign_in_begins_session_for_new_account :
  forall (c : AppConstants) (fa : AngularFireAuth.t)
         (backend : AuthBackendApiService.t) (md5 : Md5) (w : Window.t)
         (t u v t' : nat) (password tok : string) (e : JsError)
         (creds : UserCredential) (usr : User),
    let email := Window.prompt w DevAuthServiceImpl.prompt_message in
    let r := AuthService.handleRedirectResultAsync md5 w
               (AuthService.new c (Some fa) backend) in
    AuthService.firebaseEmulatorIsEnabled c = true ->
    md5 email = Fulfilled t password ->
    AngularFireAuth.signInWithEmailAndPassword fa email password
      = Rejected u (RError e) ->
    code e = Some "auth/user-not-found" ->
    AngularFireAuth.createUserWithEmailAndPassword fa email password
      = Fulfilled v creds ->
    user creds = Some usr ->
    getIdToken usr = Fulfilled t' tok ->
    fst r = [StrategyCall MGetRedirectResult;
             Prompt DevAuthServiceImpl.prompt_message;
             SignInWithEmailAndPassword email password;
             CreateUserWithEmailAndPassword email password;
             GetIdToken;
             BeginSession tok] /\
    exists p,
      snd r = Normal p /\
      settlement p
        = settlement (AuthBackendApiService.beginSessionAsync backend tok).
Proof.
  intros c fa backend md5 w t u v t' password tok e creds usr email r
    Hemu Hmd5 Hsign Hcode Hcreate Huser Htoken.
  subst r.
  assert (Hs : AuthServiceImpl.getRedirectResultAsync md5 w
                 (AuthService.authServiceImpl
                    (AuthService.new c (Some fa) backend))
               = ([StrategyCall MGetRedirectResult;
                   Prompt DevAuthServiceImpl.prompt_message;
                   SignInWithEmailAndPassword email password;
                   CreateUserWithEmailAndPassword email password],
                  Normal (Fulfilled (Nat.max t (Nat.max u v)) creds))).
  { unfold AuthService.new. rewrite Hemu. cbn [AuthService.authServiceImpl].
    unfold AuthServiceImpl.getRedirectResultAsync,
      DevAuthServiceImpl.getRedirectResultAsync.
    unfold_async. cbn. fold email. rewrite Hmd5. cbn. rewrite Hsign. cbn.
    apply code_is_true in Hcode. rewrite Hcode. cbn. rewrite Hcreate. cbn.
    now rewrite Nat.max_0_r. }
  rewrite (handleRedirectResultAsync_unfold md5 w _ _ _ Hs).
  rewrite Huser, Htoken. cbn [fst snd app].
  split; [reflexivity|].
  eexists. split; [reflexivity|]. apply settlement_delay.
Qed.

Lemma emulator_first_sign_in_begins_session_for_new_account_witness :
  fst (AuthService.handleRedirectResultAsync Samples.md5 Samples.window
         (AuthService.new (Samples.constants true true)
            (Some Samples.fresh_emulator) Samples.backend))
  = [StrategyCall MGetRedirectResult;
     Prompt DevAuthServiceImpl.prompt_message;
     SignInWithEmailAndPassword (Some "a@b.com") "md5:a@b.com";
     CreateUserWithEmailAndPassword (Some "a@b.com") "md5:a@b.com";
     GetIdToken;
     BeginSession "T"].
Proof.
  apply (proj1 (emulator_first_sign_in_begins_session_for_new_account
                  (Samples.constants true true) Samples.fresh_emulator
                  Samples.backend Samples.md5 Samples.window
                  0 3 5 7 "md5:a@b.com" "T" Samples.user_not_found
                  {| user := Some Samples.alice |} Samples.alice
                  eq_refl eq_refl eq_refl eq_refl eq_refl eq_refl eq_refl)).
Defined.
